(** * shopify_scraper.py: the Fetcher and the Projector

    A shallow embedding of [src/shopify_scraper.py].  The script handles
    untyped data decoded by [json.loads]; it reads dictionaries with
    [dict.get], iterates over whatever it finds under a key and calls
    [str.split] on the tags.  The embedding therefore keeps the values
    untyped and lets every operation raise the exception that Python
    raises when a value has the wrong shape.

    A [str] is held as the string of the bytes of its UTF-8 encoding (a
    lone surrogate as the three bytes that its code point would take); its
    characters are the code points.  The network is a
    function from the number of requests made so far and the URL to the
    way the request ends; the Fetcher threads a state (page counter,
    accumulated products, log of requests and pauses) through its loop.
    [while True] has no bound, so the loop takes fuel, one unit for each
    pass.  [time.sleep] refuses some delays, and opening and writing the
    output file may fail: the first is modelled after CPython, the second
    is left to the file system, a parameter of [main]. *)

From Stdlib Require Import List String Ascii ZArith Lia Bool Arith.
From Stdlib Require Import DecimalString DecimalNat.
From Stdlib Require Import Floats.SpecFloat.
Import ListNotations.
Open Scope string_scope.

Set Warnings "-register-all".

(** ** Python values *)

(** A number as [json.loads] yields it: an unbounded [int] or a [float]. *)
Inductive number : Type :=
| PyInt (z : Z)
| PyFloat (f : spec_float).

(** The values [json.loads] builds.  A [dict] keeps its keys in insertion
    order; it is an association list read from the left, so that a list in
    which no key occurs twice reads exactly as the dictionary does. *)
Inductive value : Type :=
| VNone
| VBool (b : bool)
| VNum (n : number)
| VStr (s : string)
| VList (l : list value)
| VDict (kv : list (string * value)).

(** The exceptions of interest.  [Exception name] stands for any other
    class. *)
Inductive exn : Type :=
| AttributeError
| TypeError
| Exception (name : string).

Inductive result (A : Type) : Type :=
| Ok (a : A)
| Raise (e : exn).

Arguments Ok {A} a.
Arguments Raise {A} e.

Definition bind {A B : Type} (r : result A) (k : A -> result B) : result B :=
  match r with
  | Ok a => k a
  | Raise e => Raise e
  end.

Notation "x <- r ;; k" := (bind r (fun x => k))
  (at level 61, r at next level, right associativity).

(** [[f(x) for x in l]]: elements are visited from the left and the first
    exception ends the comprehension. *)
Fixpoint mapM {A B : Type} (f : A -> result B) (l : list A) : result (list B) :=
  match l with
  | [] => Ok []
  | x :: l' => y <- f x ;; ys <- mapM f l' ;; Ok (y :: ys)
  end.

(** [d[k]] for a key that may be missing. *)
Fixpoint dict_get (kv : list (string * value)) (k : string) : option value :=
  match kv with
  | [] => None
  | (k', v) :: kv' => if String.eqb k' k then Some v else dict_get kv' k
  end.

Definition or_default (o : option value) (default : value) : value :=
  match o with
  | Some v => v
  | None => default
  end.

(** [v.get(k, default)]: only a [dict] has the method. *)
Definition py_get (v : value) (k : string) (default : value) : result value :=
  match v with
  | VDict kv => Ok (or_default (dict_get kv k) default)
  | _ => Raise AttributeError
  end.

(** Truth value of an object, as [if v] and [not v] test it. *)
Definition truthy (v : value) : bool :=
  match v with
  | VNone => false
  | VBool b => b
  | VNum (PyInt z) => negb (Z.eqb z 0)
  | VNum (PyFloat (S754_zero _)) => false
  | VNum (PyFloat _) => true
  | VStr s => negb (String.eqb s "")
  | VList l => match l with [] => false | _ => true end
  | VDict kv => match kv with [] => false | _ => true end
  end.

(** A byte of the form 10xxxxxx, which continues a code point. *)
Definition is_continuation (c : ascii) : bool :=
  let n := nat_of_ascii c in ((128 <=? n) && (n <? 192))%nat.

(** The characters of a [str]: its bytes, cut in front of every byte that
    does not continue a code point. *)
Fixpoint code_points (s : string) : list string :=
  match s with
  | EmptyString => []
  | String c s' =>
      match s' with
      | EmptyString => [String c EmptyString]
      | String d _ =>
          if is_continuation d
          then match code_points s' with
               | h :: t => String c h :: t
               | [] => [String c EmptyString]
               end
          else String c EmptyString :: code_points s'
      end
  end.

(** [iter(v)]: a list yields its elements, a string its characters (each a
    string of one character), a dictionary its keys; nothing else is
    iterable. *)
Definition py_iter (v : value) : result (list value) :=
  match v with
  | VList l => Ok l
  | VStr s => Ok (map VStr (code_points s))
  | VDict kv => Ok (map (fun p => VStr (fst p)) kv)
  | _ => Raise TypeError
  end.

(** *** [str.split(sep)] for a non-empty separator *)

(** [split_from sep s skip cur] scans [s] from the left.  [cur] is the piece
    read so far and [skip] counts the characters of a separator that was
    recognised and is still to be passed over. *)
Fixpoint split_from (sep s : string) (skip : nat) (cur : string) : list string :=
  match s with
  | EmptyString => [cur]
  | String c s' =>
      match skip with
      | S n => split_from sep s' n cur
      | O =>
          if String.prefix sep s
          then cur :: split_from sep s' (String.length sep - 1) ""
          else split_from sep s' 0 (cur ++ String c "")
      end
  end.

Definition split (sep s : string) : list string := split_from sep s 0 "".

(** [sep.join(l)] *)
Fixpoint join (sep : string) (l : list string) : string :=
  match l with
  | [] => ""
  | [x] => x
  | x :: l' => x ++ sep ++ join sep l'
  end.

(** [v.split(sep)]: only a [str] has the method. *)
Definition py_split (v : value) (sep : string) : result value :=
  match v with
  | VStr s => Ok (VList (map VStr (split sep s)))
  | _ => Raise AttributeError
  end.

(** ** The Projector *)

(** The dictionary built for one variant (lines 102-112). *)
Definition project_variant (v : value) : result value :=
  id <- py_get v "id" VNone ;;
  title <- py_get v "title" VNone ;;
  price <- py_get v "price" VNone ;;
  compare_at_price <- py_get v "compare_at_price" VNone ;;
  sku <- py_get v "sku" VNone ;;
  available <- py_get v "available" VNone ;;
  inventory_quantity <- py_get v "inventory_quantity" VNone ;;
  weight <- py_get v "weight" VNone ;;
  weight_unit <- py_get v "weight_unit" VNone ;;
  Ok (VDict [("id", id); ("title", title); ("price", price);
             ("compare_at_price", compare_at_price); ("sku", sku);
             ("available", available);
             ("inventory_quantity", inventory_quantity);
             ("weight", weight); ("weight_unit", weight_unit)]).

(** [img.get('src')] (line 115). *)
Definition project_image (img : value) : result value :=
  py_get img "src" VNone.

(** The conditional expression of line 96. *)
Definition project_tags (product : value) : result value :=
  c <- py_get product "tags" VNone ;;
  if truthy c
  then t <- py_get product "tags" (VStr "") ;; py_split t ", "
  else Ok (VList []).

(** [extract_product_info]: the entries of the dictionary display are
    evaluated in the order in which they are written. *)
Definition extract_product_info (product : value) : result value :=
  variants <- py_get product "variants" (VList []) ;;
  images <- py_get product "images" (VList []) ;;
  id <- py_get product "id" VNone ;;
  title <- py_get product "title" VNone ;;
  handle <- py_get product "handle" VNone ;;
  vendor <- py_get product "vendor" VNone ;;
  product_type <- py_get product "product_type" VNone ;;
  tags <- project_tags product ;;
  description <- py_get product "body_html" (VStr "") ;;
  created_at <- py_get product "created_at" VNone ;;
  updated_at <- py_get product "updated_at" VNone ;;
  published_at <- py_get product "published_at" VNone ;;
  vs <- py_iter variants ;;
  variants' <- mapM project_variant vs ;;
  imgs <- py_iter images ;;
  images' <- mapM project_image imgs ;;
  options <- py_get product "options" (VList []) ;;
  Ok (VDict [("id", id); ("title", title); ("handle", handle);
             ("vendor", vendor); ("product_type", product_type);
             ("tags", tags); ("description", description);
             ("created_at", created_at); ("updated_at", updated_at);
             ("published_at", published_at);
             ("variants", VList variants'); ("images", VList images');
             ("options", options)]).

(** ** The Fetcher *)

(** [limit = 250  # Shopify max per page] *)
Definition limit : nat := 250.

(** An [int] formatted by an f-string. *)
Definition decimal (n : nat) : string := NilEmpty.string_of_uint (Nat.to_uint n).

(** [s.rstrip('/')], for any character [c]. *)
Fixpoint rstrip (c : ascii) (s : string) : string :=
  match s with
  | EmptyString => EmptyString
  | String a s' =>
      match rstrip c s' with
      | EmptyString => if Ascii.eqb a c then EmptyString else String a EmptyString
      | r => String a r
      end
  end.

(** Lines 26-28. *)
Definition normalize (store_url : string) : string :=
  let store_url :=
    if String.prefix "http://" store_url || String.prefix "https://" store_url
    then store_url
    else "https://" ++ store_url in
  rstrip "/" store_url.

(** Line 37. *)
Definition page_url (store_url : string) (page : nat) : string :=
  store_url ++ "/products.json?limit=" ++ decimal limit
            ++ "&page=" ++ decimal page.

(** [1e9] and [2**63] as floats, and [-2**63]. *)
Definition ns_per_second : spec_float :=
  S754_finite false 8388608000000000 (-23).

Definition two_63 : spec_float := S754_finite false 4503599627370496 11.

Definition minus_two_63 : spec_float := S754_finite true 4503599627370496 11.

(** [time.sleep(secs)], as CPython 3.11 carries it out on Linux: the delay
    is turned into a number of nanoseconds that has to fit into 64 bits
    (for a float by a floating-point multiplication by [1e9]), and must
    not be negative.  [NaN] and negative delays raise [ValueError], delays
    out of range raise [OverflowError]; [-0.0] is accepted.  A product of
    exactly [2**63], on which the conversion of CPython is left to the C
    compiler, is taken to be out of range. *)
Definition py_sleep (secs : number) : result unit :=
  match secs with
  | PyInt z =>
      if ((z <? -9223372036) || (9223372036 <? z))%Z
      then Raise (Exception "OverflowError")
      else if (z <? 0)%Z then Raise (Exception "ValueError")
      else Ok tt
  | PyFloat S754_nan => Raise (Exception "ValueError")
  | PyFloat f =>
      let ns := SFmul 53 1024 f ns_per_second in
      if SFleb minus_two_63 ns && SFltb ns two_63
      then if SFltb ns (S754_zero false)
           then Raise (Exception "ValueError")
           else Ok tt
      else Raise (Exception "OverflowError")
  end.

(** How one pass through the [try] block (lines 40-63) ends, named after
    the [except] clause that receives it: the body was read and decoded
    into [data], or [urlopen], [read], [decode] or [json.loads] raised.
    [OtherError] is an exception of a class that no clause names. *)
Inductive outcome : Type :=
| Response (data : value)
| HTTPError (code : Z)
| URLError
| JSONDecodeError
| OtherError (e : exn).

(** The network: what the request for a URL ends in, given the number of
    requests the script has made before. *)
Definition endpoint : Type := nat -> string -> outcome.

(** What the Fetcher does to the world, in order: the requests it makes
    and the pauses it takes (a [time.sleep] that raises is no pause).  The
    request headers and the timeout are constants of the script and the
    progress messages are left out. *)
Inductive event : Type :=
| EvRequest (url : string)
| EvSleep (secs : number).

Record state : Type := mkState {
  page : nat;
  all_products : list value;
  requests : nat;
  log : list event
}.

Definition record_event (st : state) (e : event) : state :=
  mkState (page st) (all_products st) (requests st) (log st ++ [e]).

Definition requested (st : state) (url : string) : state :=
  mkState (page st) (all_products st) (S (requests st))
          (log st ++ [EvRequest url]).

Definition extend (st : state) (items : list value) : state :=
  mkState (page st) (all_products st ++ items) (requests st) (log st).

Definition next_page (st : state) : state :=
  mkState (page st + 1) (all_products st) (requests st) (log st).

(** The three ways of leaving the body of [while True]: around again
    ([continue], or the end of the body), [break], or an exception that no
    [except] clause catches. *)
Inductive control : Type :=
| Continue (st : state)
| Break (st : state)
| Propagate (e : exn) (st : state).

(** The body of the loop, lines 37-80.  [time.sleep(delay)] stands inside
    the [try], but no [except] clause names what it raises; what
    [time.sleep(10)] raises inside a handler is not caught either. *)
Definition iteration (net : endpoint) (store_url : string) (delay : number)
    (st : state) : control :=
  let url := page_url store_url (page st) in
  let st' := requested st url in
  match net (requests st) url with
  | Response data =>
      match py_get data "products" (VList []) with
      | Raise e => Propagate e st'
      | Ok products =>
          if negb (truthy products) then Break st'
          else
            match py_iter products with
            | Raise e => Propagate e st'
            | Ok items =>
                let st'' := extend st' items in
                if (List.length items <? limit)%nat then Break st''
                else
                  match py_sleep delay with
                  | Ok _ =>
                      Continue (record_event (next_page st'') (EvSleep delay))
                  | Raise e => Propagate e (next_page st'')
                  end
            end
      end
  | HTTPError code =>
      if (code =? 404)%Z then Break st'
      else if (code =? 429)%Z
           then
             match py_sleep (PyInt 10) with
             | Ok _ => Continue (record_event st' (EvSleep (PyInt 10)))
             | Raise e => Propagate e st'
             end
           else Break st'
  | URLError => Break st'
  | JSONDecodeError => Break st'
  | OtherError e => Propagate e st'
  end.

(** [while True], cut off after [fuel] passes: [None] says that the loop is
    still running then. *)
Fixpoint fetch_loop (fuel : nat) (net : endpoint) (store_url : string)
    (delay : number) (st : state) : option (result (list value) * state) :=
  match fuel with
  | O => None
  | S fuel' =>
      match iteration net store_url delay st with
      | Continue st' => fetch_loop fuel' net store_url delay st'
      | Break st' => Some (Ok (all_products st'), st')
      | Propagate e st' => Some (Raise e, st')
      end
  end.

Definition initial : state := mkState 1 [] 0 [].

Definition scrape_shopify_products (fuel : nat) (net : endpoint)
    (store_url : string) (delay : number)
  : option (result (list value) * state) :=
  fetch_loop fuel net (normalize store_url) delay initial.

(** [delay: float = 1.0] *)
Definition default_delay : number :=
  PyFloat (S754_finite false 4503599627370496 (-52)).

(** ** The command line *)

(** How the process ends: [sys.exit(code)] or the end of the script, or an
    exception that reaches the top level. *)
Inductive termination : Type :=
| Exit (code : Z)
| Traceback (e : exn).

Record run : Type := mkRun {
  status : termination;
  written : option (string * list value);
  trace : list event
}.

(** [p[k]] *)
Definition py_item (p : value) (k : string) : result value :=
  match p with
  | VDict kv =>
      match dict_get kv k with
      | Some v => Ok v
      | None => Raise (Exception "KeyError")
      end
  | _ => Raise TypeError
  end.

(** Lists and dictionaries cannot be members of a set. *)
Definition hashable (v : value) : bool :=
  match v with
  | VList _ | VDict _ => false
  | _ => true
  end.

(** [set(p[k] for p in cleaned_products if p[k])] (lines 149-150), as the
    sequence of the values handed to the set. *)
Fixpoint members (k : string) (cleaned : list value) : result (list value) :=
  match cleaned with
  | [] => Ok []
  | p :: rest =>
      c <- py_item p k ;;
      if truthy c
      then v <- py_item p k ;;
           if hashable v
           then vs <- members k rest ;; Ok (v :: vs)
           else Raise TypeError
      else members k rest
  end.

(** The file system: what opening the file of the given name for writing
    and dumping the given records into it (lines 142-143) end in, [None]
    when both succeed and the exception that is raised otherwise
    ([FileNotFoundError] from [open], [UnicodeEncodeError] from
    [json.dump], ...). *)
Definition filesystem : Type := string -> list value -> option exn.

(** [main], with [argv] for [sys.argv].  [written] is the output file when
    it was written in full; a failed [open] or [json.dump] leaves no file
    or a part of it, which [written] does not tell apart. *)
Definition main (fuel : nat) (net : endpoint) (fs : filesystem)
    (argv : list string) : option run :=
  if (List.length argv <? 2)%nat then Some (mkRun (Exit 1) None [])
  else
    let store_url := nth 1 argv "" in
    let output_file :=
      if (2 <? List.length argv)%nat then nth 2 argv "" else "products.json" in
    match scrape_shopify_products fuel net store_url default_delay with
    | None => None
    | Some (Raise e, st) => Some (mkRun (Traceback e) None (log st))
    | Some (Ok products, st) =>
        if negb (truthy (VList products))
        then Some (mkRun (Exit 1) None (log st))
        else
          match mapM extract_product_info products with
          | Raise e => Some (mkRun (Traceback e) None (log st))
          | Ok cleaned_products =>
              match fs output_file cleaned_products with
              | Some e => Some (mkRun (Traceback e) None (log st))
              | None =>
                  let file := Some (output_file, cleaned_products) in
                  match
                    (vendors <- members "vendor" cleaned_products ;;
                     types <- members "product_type" cleaned_products ;;
                     Ok (vendors, types))
                  with
                  | Raise e => Some (mkRun (Traceback e) file (log st))
                  | Ok _ => Some (mkRun (Exit 0) file (log st))
                  end
              end
          end
    end.

(** ** Reading the result of the Projector *)

(** The value under key [k] of a dictionary, [None] when [v] has no such
    key or is no dictionary. *)
Definition field (v : value) (k : string) : option value :=
  match v with
  | VDict kv => dict_get kv k
  | _ => None
  end.

(** The keys of a dictionary, in order. *)
Definition keys (v : value) : option (list string) :=
  match v with
  | VDict kv => Some (map fst kv)
  | _ => None
  end.

Definition is_dict (v : value) : bool :=
  match v with
  | VDict _ => true
  | _ => false
  end.

(** The field is missing or holds a list of dictionaries: the shape the
    data model gives to [variants] and [images]. *)
Definition seq_of_records (o : option value) : bool :=
  match o with
  | None => true
  | Some (VList l) => forallb is_dict l
  | Some _ => false
  end.

(** The field is missing, holds a string, or holds a value that counts as
    false (such as [None]). *)
Definition splittable (o : option value) : bool :=
  match o with
  | None => true
  | Some (VStr _) => true
  | Some v => negb (truthy v)
  end.

Definition well_shaped (kv : list (string * value)) : bool :=
  splittable (dict_get kv "tags")
  && seq_of_records (dict_get kv "variants")
  && seq_of_records (dict_get kv "images").

(** The scalar fields of the data model. *)
Definition scalar_fields : list string :=
  ["id"; "title"; "handle"; "vendor"; "product_type"; "body_html";
   "created_at"; "updated_at"; "published_at"].

(** The scalar fields that the Projector copies under their own key. *)
Definition copied_fields : list string :=
  ["id"; "title"; "handle"; "vendor"; "product_type";
   "created_at"; "updated_at"; "published_at"].

Definition product_keys : list string :=
  ["id"; "title"; "handle"; "vendor"; "product_type"; "tags";
   "description"; "created_at"; "updated_at"; "published_at";
   "variants"; "images"; "options"].

Definition variant_keys : list string :=
  ["id"; "title"; "price"; "compare_at_price"; "sku"; "available";
   "inventory_quantity"; "weight"; "weight_unit"].

(** Python's whitespace among the ASCII characters, and a string that
    [str.strip] would leave as it is.  The script never calls [strip];
    the predicate only serves to state what "trimmed" asks for. *)
Definition is_space (c : ascii) : bool :=
  let n := nat_of_ascii c in
  ((9 <=? n) && (n <=? 13) || (28 <=? n) && (n <=? 32))%nat.

Definition starts_with_space (s : string) : bool :=
  match s with
  | String c _ => is_space c
  | EmptyString => false
  end.

Fixpoint ends_with_space (s : string) : bool :=
  match s with
  | EmptyString => false
  | String c EmptyString => is_space c
  | String _ s' => ends_with_space s'
  end.

Definition trimmed (s : string) : bool :=
  negb (starts_with_space s) && negb (ends_with_space s).

(** ** The result of the Projector, spelled out *)

(** What the Projector builds from a variant that is a dictionary. *)
Definition projected_variant (vkv : list (string * value)) : value :=
  VDict (map (fun k => (k, or_default (dict_get vkv k) VNone)) variant_keys).

(** The Projector on a dictionary, with the reads of the scalar fields
    carried out. *)
Definition assemble (kv : list (string * value))
    (tags : value) (variants' images' : list value) : value :=
  let get k d := or_default (dict_get kv k) d in
  VDict [("id", get "id" VNone); ("title", get "title" VNone);
         ("handle", get "handle" VNone); ("vendor", get "vendor" VNone);
         ("product_type", get "product_type" VNone);
         ("tags", tags); ("description", get "body_html" (VStr ""));
         ("created_at", get "created_at" VNone);
         ("updated_at", get "updated_at" VNone);
         ("published_at", get "published_at" VNone);
         ("variants", VList variants'); ("images", VList images');
         ("options", get "options" (VList []))].

(** The entries of a dictionary; no entries for any other value. *)
Definition dict_of (v : value) : list (string * value) :=
  match v with
  | VDict kv => kv
  | _ => []
  end.

(** The keys the Projector reads in a raw product. *)
Definition read_keys : list string :=
  ["variants"; "images"; "id"; "title"; "handle"; "vendor"; "product_type";
   "tags"; "body_html"; "created_at"; "updated_at"; "published_at";
   "options"].

(** ** Definitions for the statements on the Fetcher and the exit status *)





(** The requests among the events. *)
Definition requests_in (l : list event) : list string :=
  flat_map (fun e => match e with EvRequest url => [url] | EvSleep _ => [] end) l.

(** The pauses among the events. *)
Definition sleeps_in (l : list event) : list number :=
  flat_map (fun e => match e with EvSleep d => [d] | EvRequest _ => [] end) l.




(** ** Endpoints used as examples *)


(** An endpoint that is rate limited on the first request only. *)
Definition limited_once : endpoint :=
  fun t _ =>
    match t with
    | O => HTTPError 429
    | _ => Response (VDict [("products", VList [VDict [("id", VNum (PyInt 1))]])])
    end.

(** A store whose second page cannot be served. *)
Definition failing_store : endpoint :=
  fun _ url =>
    if String.eqb url "https://shop.example/products.json?limit=250&page=1"
    then Response (VDict [("products", VList (repeat (VDict []) 250))])
    else HTTPError 500.

(** A store with one product, whose tags are a list of strings. *)
Definition tag_list_store : endpoint :=
  fun _ _ =>
    Response (VDict [("products",
                      VList [VDict [("title", VStr "Mug");
                                    ("tags", VList [VStr "sale"])]])]).

(** ** Definitions for the further properties *)

(** The test of line 26: [store_url.startswith(('http://', 'https://'))]. *)
Definition has_scheme (s : string) : bool :=
  String.prefix "http://" s || String.prefix "https://" s.

(** The store URL after line 27, before the slashes are stripped. *)
Definition with_scheme (s : string) : string :=
  if has_scheme s then s else "https://" ++ s.

(** The last character of [s] is [c]. *)
Fixpoint ends_with (c : ascii) (s : string) : bool :=
  match s with
  | EmptyString => false
  | String a EmptyString => Ascii.eqb a c
  | String _ s' => ends_with c s'
  end.

(** The string of [n] characters [c]. *)
Fixpoint replicate (c : ascii) (n : nat) : string :=
  match n with
  | O => EmptyString
  | S n' => String c (replicate c n')
  end.

(** [sep] occurs in [s]. *)
Definition occurs (sep s : string) : Prop :=
  exists a b, s = a ++ sep ++ b.

(** A run of the loop as seen from outside: requests with a pause between
    any two of them, a request first and a request last. *)
Fixpoint polite (evs : list event) : bool :=
  match evs with
  | [EvRequest _] => true
  | EvRequest _ :: EvSleep _ :: rest => polite rest
  | _ => false
  end.

(** What the loops of lines 101-115 accept under [variants] and [images]:
    no such key, a list of dictionaries, or an empty string or dictionary,
    over which the loop does not run at all. *)
Definition iterable_records (o : option value) : bool :=
  match o with
  | None => true
  | Some (VList l) => forallb is_dict l
  | Some (VStr s) => String.eqb s ""
  | Some (VDict kv) => match kv with [] => true | _ => false end
  | Some _ => false
  end.

(** The output file, lines 129. *)
Definition output_file_of (argv : list string) : string :=
  if (2 <? List.length argv)%nat then nth 2 argv "" else "products.json".



(** A file system on which every file can be written. *)
Definition disk : filesystem := fun _ _ => None.







(** ** Trying the definitions *)

Example split_abc : split ", " "a, b, c" = ["a"; "b"; "c"].
Proof. reflexivity. Qed.

Example split_solo : split ", " "solo" = ["solo"].
Proof. reflexivity. Qed.

Example split_trailing : split ", " "a, " = ["a"; ""].
Proof. reflexivity. Qed.

Example split_commas : split ", " "a,, b,c" = ["a,"; "b,c"].
Proof. reflexivity. Qed.

Example normalize_bare :
  normalize "shop.example.com//" = "https://shop.example.com".
Proof. reflexivity. Qed.

Example page_url_3 :
  page_url "https://s" 3 = "https://s/products.json?limit=250&page=3".
Proof. reflexivity. Qed.

(** A body that is JSON but no object: [data.get] raises, and no [except]
    clause of the loop catches an [AttributeError]. *)
Example fetcher_propagates :
  scrape_shopify_products 1 (fun _ _ => Response (VList [])) "shop.example"
    default_delay
  = Some (Raise AttributeError,
          mkState 1 [] 1
            [EvRequest "https://shop.example/products.json?limit=250&page=1"]).
Proof. reflexivity. Qed.

(** A 404 on the first page: nothing is fetched, and [main] exits with 1. *)
Example not_found_exits_1 :
  main 1 (fun _ _ => HTTPError 404) disk ["shopify_scraper.py"; "shop.example"]
  = Some (mkRun (Exit 1) None
            [EvRequest "https://shop.example/products.json?limit=250&page=1"]).
Proof. reflexivity. Qed.

Example sleep_default : py_sleep default_delay = Ok tt.
Proof. reflexivity. Qed.

Example sleep_negative : py_sleep (PyInt (-1)) = Raise (Exception "ValueError").
Proof. reflexivity. Qed.

Example sleep_nan : py_sleep (PyFloat S754_nan) = Raise (Exception "ValueError").
Proof. reflexivity. Qed.

Example sleep_minus_zero : py_sleep (PyFloat (S754_zero true)) = Ok tt.
Proof. reflexivity. Qed.

Example sleep_huge :
  py_sleep (PyFloat (S754_infinity false)) = Raise (Exception "OverflowError")
  /\ py_sleep (PyInt 9223372037) = Raise (Exception "OverflowError").
Proof. split; reflexivity. Qed.

(** Two code points, of three bytes and of one. *)
Example code_points_euro :
  code_points (String "226" (String "130" (String "172" "a")))
  = [String "226" (String "130" (String "172" "")); "a"].
Proof. reflexivity. Qed.

(** ** Lemmas on the Projector *)

Section MapM.
Variables A B : Type.
Variable f : A -> result B.

Lemma mapM_Ok_Forall2 (l : list A) (l' : list B) :
  mapM f l = Ok l' -> Forall2 (fun x y => f x = Ok y) l l'.
Proof.
  revert l'; induction l as [|x l IH]; simpl; intros l' H.
  - injection H as <-. constructor.
  - destruct (f x) as [y|e] eqn:Hx; simpl in H; [|discriminate].
    destruct (mapM f l) as [ys|e] eqn:Hl; simpl in H; [|discriminate].
    injection H as <-. constructor; auto.
Qed.

Lemma Forall2_mapM_Ok (l : list A) (l' : list B) :
  Forall2 (fun x y => f x = Ok y) l l' -> mapM f l = Ok l'.
Proof.
  induction 1 as [|x y l l' Hx _ IH]; simpl; [reflexivity|].
  rewrite Hx; simpl. rewrite IH; reflexivity.
Qed.
End MapM.

Lemma project_variant_dict (vkv : list (string * value)) :
  project_variant (VDict vkv) = Ok (projected_variant vkv).
Proof. reflexivity. Qed.

Lemma project_variant_Ok (v v' : value) :
  project_variant v = Ok v' ->
  exists vkv, v = VDict vkv /\ v' = projected_variant vkv.
Proof.
  destruct v; try discriminate.
  rewrite project_variant_dict. intros [= <-]. eauto.
Qed.

Lemma project_image_Ok (img src : value) :
  project_image img = Ok src ->
  exists ikv, img = VDict ikv /\ src = or_default (dict_get ikv "src") VNone.
Proof.
  destruct img; try discriminate.
  unfold project_image; simpl. intros [= <-]. eauto.
Qed.

Lemma extract_product_info_dict (kv : list (string * value)) :
  extract_product_info (VDict kv) =
    (tags <- project_tags (VDict kv) ;;
     vs <- py_iter (or_default (dict_get kv "variants") (VList [])) ;;
     variants' <- mapM project_variant vs ;;
     imgs <- py_iter (or_default (dict_get kv "images") (VList [])) ;;
     images' <- mapM project_image imgs ;;
     Ok (assemble kv tags variants' images')).
Proof. reflexivity. Qed.

Lemma extract_product_info_Ok (kv : list (string * value)) (out : value) :
  extract_product_info (VDict kv) = Ok out ->
  exists tags vs variants' imgs images',
    project_tags (VDict kv) = Ok tags
    /\ py_iter (or_default (dict_get kv "variants") (VList [])) = Ok vs
    /\ mapM project_variant vs = Ok variants'
    /\ py_iter (or_default (dict_get kv "images") (VList [])) = Ok imgs
    /\ mapM project_image imgs = Ok images'
    /\ out = assemble kv tags variants' images'.
Proof.
  rewrite extract_product_info_dict. intros H.
  destruct (project_tags (VDict kv)) as [tags|] eqn:Ht; [|discriminate].
  destruct (py_iter (or_default (dict_get kv "variants") (VList [])))
    as [vs|] eqn:Hv; [|discriminate].
  simpl in H.
  destruct (mapM project_variant vs) as [variants'|] eqn:Hvs; [|discriminate].
  destruct (py_iter (or_default (dict_get kv "images") (VList [])))
    as [imgs|] eqn:Hi; [|discriminate].
  simpl in H.
  destruct (mapM project_image imgs) as [images'|] eqn:His; [|discriminate].
  simpl in H. injection H as <-.
  exists tags, vs, variants', imgs, images'. repeat split; auto.
Qed.

(** *** [split] and [join] *)

Lemma append_empty_r (s : string) : s ++ "" = s.
Proof. induction s as [|c s IH]; simpl; [reflexivity | now rewrite IH]. Qed.

Lemma append_assoc (s t u : string) : (s ++ t) ++ u = s ++ (t ++ u).
Proof. induction s as [|c s IH]; simpl; [reflexivity | now rewrite IH]. Qed.

Lemma prefix_append (p s : string) :
  String.prefix p s = true -> exists t, s = p ++ t.
Proof.
  revert s; induction p as [|a p IH]; intros s H.
  - now exists s.
  - destruct s as [|c s]; simpl in H; [discriminate|].
    destruct (ascii_dec a c) as [->|]; [|discriminate].
    destruct (IH s H) as [t ->]. now exists t.
Qed.

Lemma split_from_not_nil (sep s : string) (skip : nat) (cur : string) :
  split_from sep s skip cur <> [].
Proof.
  revert skip cur; induction s as [|c s IH]; intros skip cur;
    cbn [split_from].
  - discriminate.
  - destruct skip; [|apply IH].
    destruct (String.prefix sep (String c s)); [discriminate | apply IH].
Qed.

Lemma join_cons (sep x : string) (l : list string) :
  l <> [] -> join sep (x :: l) = x ++ sep ++ join sep l.
Proof. destruct l; [congruence | reflexivity]. Qed.

(** Joining the pieces with the separator gives back what was scanned. *)
Lemma join_split_from (sep : string) :
  sep <> "" ->
  forall s skip cur pre rest,
    s = pre ++ rest -> String.length pre = skip ->
    join sep (split_from sep s skip cur) = cur ++ rest.
Proof.
  intros Hsep. induction s as [|c s IH]; intros skip cur pre rest Hs Hlen.
  - destruct pre; [|discriminate]. simpl in Hs, Hlen. subst.
    simpl. now rewrite append_empty_r.
  - destruct skip as [|n].
    + destruct pre; [|discriminate]. simpl in Hs. subst rest.
      cbn [split_from].
      destruct (String.prefix sep (String c s)) eqn:Hp.
      * destruct (prefix_append _ _ Hp) as [t Ht].
        destruct sep as [|a sep']; [congruence|].
        simpl in Ht. injection Ht as -> ->.
        rewrite join_cons by apply split_from_not_nil.
        rewrite (IH _ "" sep' t eq_refl) by (simpl; lia).
        reflexivity.
      * rewrite (IH 0 _ "" s eq_refl eq_refl).
        now rewrite append_assoc.
    + destruct pre as [|a pre]; [discriminate|].
      simpl in Hs, Hlen. injection Hs as -> ->. injection Hlen as Hlen.
      cbn [split_from]. now apply (IH n cur pre rest).
Qed.

Lemma join_split (sep s : string) : sep <> "" -> join sep (split sep s) = s.
Proof.
  intros Hsep. unfold split.
  exact (join_split_from sep Hsep s 0 "" "" s eq_refl eq_refl).
Qed.

(** *** The tags *)

Lemma project_tags_str (kv : list (string * value)) (s : string) :
  dict_get kv "tags" = Some (VStr s) -> s <> "" ->
  project_tags (VDict kv) = Ok (VList (map VStr (split ", " s))).
Proof.
  intros H Hs. unfold project_tags; simpl. rewrite H; simpl.
  apply String.eqb_neq in Hs. now rewrite Hs.
Qed.

Lemma project_tags_falsy (kv : list (string * value)) :
  truthy (or_default (dict_get kv "tags") VNone) = false ->
  project_tags (VDict kv) = Ok (VList []).
Proof. intros H. unfold project_tags; simpl. now rewrite H. Qed.

Lemma project_tags_splittable (kv : list (string * value)) :
  splittable (dict_get kv "tags") = true ->
  exists tags, project_tags (VDict kv) = Ok tags.
Proof.
  intros H. unfold project_tags; simpl.
  destruct (dict_get kv "tags") as [v|]; simpl; [|eauto].
  destruct (truthy v) eqn:Hv; [|eauto].
  destruct v; unfold splittable in H;
    try (rewrite Hv in H; discriminate).
  unfold py_split. eauto.
Qed.

Lemma field_assemble_tags kv tags variants' images' :
  field (assemble kv tags variants' images') "tags" = Some tags.
Proof. reflexivity. Qed.

(** *** Sequences of records *)

Lemma seq_of_records_iter (o : option value) :
  seq_of_records o = true ->
  exists l, py_iter (or_default o (VList [])) = Ok l
            /\ forallb is_dict l = true
            /\ (forall l0, o = Some (VList l0) -> l = l0)
            /\ (o = None -> l = []).
Proof.
  destruct o as [v|]; simpl.
  - destruct v; try discriminate. intros H. exists l.
    repeat split; auto; congruence.
  - intros _. exists []. repeat split; auto; congruence.
Qed.

Lemma mapM_project_variant (l : list value) :
  forallb is_dict l = true ->
  mapM project_variant l = Ok (map (fun v => projected_variant (dict_of v)) l).
Proof.
  induction l as [|v l IH]; [reflexivity|].
  cbn [forallb]. intros [Hv Hl]%andb_prop.
  destruct v; try discriminate.
  cbn [mapM map]. rewrite project_variant_dict, (IH Hl). reflexivity.
Qed.

Lemma mapM_project_image (l : list value) :
  forallb is_dict l = true ->
  mapM project_image l
  = Ok (map (fun img => or_default (dict_get (dict_of img) "src") VNone) l).
Proof.
  induction l as [|v l IH]; [reflexivity|].
  cbn [forallb]. intros [Hv Hl]%andb_prop.
  destruct v; try discriminate.
  cbn [mapM map]. rewrite (IH Hl). reflexivity.
Qed.

Lemma field_projected_variant (vkv : list (string * value)) (k : string) :
  In k variant_keys ->
  field (projected_variant vkv) k = Some (or_default (dict_get vkv k) VNone).
Proof.
  intros Hk. simpl in Hk.
  repeat (destruct Hk as [<-|Hk]; [reflexivity|]). contradiction.
Qed.

Lemma field_assemble_copied kv tags variants' images' (k : string) :
  In k copied_fields ->
  field (assemble kv tags variants' images') k
  = Some (or_default (dict_get kv k) VNone).
Proof.
  intros Hk. simpl in Hk.
  repeat (destruct Hk as [<-|Hk]; [reflexivity|]). contradiction.
Qed.

(** ** The claims on the Projector *)

(** C2, as stated, fails: the pieces are not trimmed.  The tags
    ["red,  blue"] (two spaces) are projected to ["red"] and [" blue"], and
    the second piece starts with a space. *)
Lemma C2_tags_not_trimmed :
  exists out,
    extract_product_info (VDict [("tags", VStr "red,  blue")]) = Ok out
    /\ field out "tags" = Some (VList [VStr "red"; VStr " blue"])
    /\ trimmed " blue" = false.
Proof. eexists. repeat split. Qed.

(** C2, amended.  Whenever the Projector returns: tags that are a non-empty
    string are split at each occurrence of [", "] into the sequence of the
    pieces between the separators, in order and with nothing else removed
    (joining the pieces with [", "] gives the string back), so that
    ["a, b, c"] gives [["a","b","c"]] and ["solo"] gives [["solo"]]; tags
    that are the empty string or absent give the empty sequence. *)
Theorem C2_tags_split (kv : list (string * value)) (out : value) :
  extract_product_info (VDict kv) = Ok out ->
  (forall s, dict_get kv "tags" = Some (VStr s) -> s <> "" ->
     field out "tags" = Some (VList (map VStr (split ", " s)))
     /\ join ", " (split ", " s) = s)
  /\ (dict_get kv "tags" = Some (VStr "a, b, c") ->
      field out "tags" = Some (VList [VStr "a"; VStr "b"; VStr "c"]))
  /\ (dict_get kv "tags" = Some (VStr "solo") ->
      field out "tags" = Some (VList [VStr "solo"]))
  /\ (dict_get kv "tags" = Some (VStr "") -> field out "tags" = Some (VList []))
  /\ (dict_get kv "tags" = None -> field out "tags" = Some (VList [])).
Proof.
  intros H.
  destruct (extract_product_info_Ok kv out H)
    as (tags & vs & variants' & imgs & images' & Ht & _ & _ & _ & _ & ->).
  rewrite field_assemble_tags.
  assert (Hstr : forall s, dict_get kv "tags" = Some (VStr s) -> s <> "" ->
                 Some tags = Some (VList (map VStr (split ", " s)))).
  { intros s Hs Hne. rewrite (project_tags_str kv s Hs Hne) in Ht. congruence. }
  repeat split.
  - now apply Hstr.
  - apply join_split. discriminate.
  - intros Hs. now rewrite (Hstr _ Hs) by discriminate.
  - intros Hs. now rewrite (Hstr _ Hs) by discriminate.
  - intros Hs. rewrite project_tags_falsy in Ht by now rewrite Hs. congruence.
  - intros Hs. rewrite project_tags_falsy in Ht by now rewrite Hs. congruence.
Qed.

Lemma C2_tags_split_witness :
  let kv := [("id", VNum (PyInt 7)); ("tags", VStr "a, b, c")] in
  let out := assemble kv (VList [VStr "a"; VStr "b"; VStr "c"]) [] [] in
  extract_product_info (VDict kv) = Ok out
  /\ field out "tags" = Some (VList [VStr "a"; VStr "b"; VStr "c"]).
Proof.
  intros kv out. split; [reflexivity|].
  apply (proj1 (proj2 (C2_tags_split kv out eq_refl))). reflexivity.
Defined.

(** Outside the data model, where variants are a sequence: a record whose
    [variants] field is null makes the Projector raise [TypeError]. *)
Example projector_raises_on_null_variants :
  extract_product_info
    (VDict [("id", VNum (PyInt 1)); ("title", VStr "Mug"); ("variants", VNone)])
  = Raise TypeError.
Proof. reflexivity. Qed.

(** Tags that arrive as a list of strings make it raise as well. *)
Example projector_raises_on_tag_list :
  extract_product_info (VDict [("tags", VList [VStr "sale"])])
  = Raise AttributeError.
Proof. reflexivity. Qed.

(** C5.  On every record of the data model, with any or all of its fields
    and of the fields of its variants and images absent, the Projector
    returns: the [tags], when present, are a string (or a value that
    counts as false), the [variants] and the [images], when present, are
    lists of records.  Every absent field then has its default: [None] for the scalar fields copied
    under their own key, the empty string for the description, the empty
    list for tags, variants, images and options, [None] for every absent
    field of a variant and for the [src] of an image that has none. *)
Theorem C5_projector_total_on_well_shaped (kv : list (string * value)) :
  well_shaped kv = true ->
  exists out,
    extract_product_info (VDict kv) = Ok out
    /\ (forall k, In k copied_fields -> dict_get kv k = None ->
        field out k = Some VNone)
    /\ (dict_get kv "body_html" = None ->
        field out "description" = Some (VStr ""))
    /\ (forall k, In k ["tags"; "variants"; "images"; "options"] ->
        dict_get kv k = None -> field out k = Some (VList []))
    /\ (forall vs, dict_get kv "variants" = Some (VList vs) ->
        exists vs', field out "variants" = Some (VList vs')
          /\ Forall2 (fun v v' => forall k, In k variant_keys ->
                        field v k = None -> field v' k = Some VNone) vs vs')
    /\ (forall imgs, dict_get kv "images" = Some (VList imgs) ->
        exists srcs, field out "images" = Some (VList srcs)
          /\ Forall2 (fun img src => field img "src" = None -> src = VNone)
               imgs srcs).
Proof.
  unfold well_shaped. intros [[Ht Hv]%andb_prop Hi]%andb_prop.
  destruct (project_tags_splittable kv Ht) as [tags Htags].
  destruct (seq_of_records_iter _ Hv) as (vs & Hvs & Hvd & Hvs1 & Hvs0).
  destruct (seq_of_records_iter _ Hi) as (imgs & His & Hid & His1 & His0).
  eexists. split.
  { rewrite extract_product_info_dict, Htags, Hvs. cbn [bind].
    rewrite (mapM_project_variant _ Hvd), His. cbn [bind].
    rewrite (mapM_project_image _ Hid). reflexivity. }
  repeat split.
  - intros k Hk Hnone. rewrite field_assemble_copied, Hnone by assumption.
    reflexivity.
  - intros Hnone. cbn. now rewrite Hnone.
  - intros k Hk Hnone. simpl in Hk.
    destruct Hk as [<-|[<-|[<-|[<-|[]]]]]; cbn.
    + rewrite project_tags_falsy in Htags by now rewrite Hnone. congruence.
    + now rewrite (Hvs0 Hnone).
    + now rewrite (His0 Hnone).
    + now rewrite Hnone.
  - intros vs0 Hsome. rewrite <- (Hvs1 _ Hsome). eexists. split; [reflexivity|].
    clear - Hvd. induction vs as [|v vs IH]; [constructor|].
    cbn [forallb] in Hvd. apply andb_prop in Hvd as [Hd Hvd].
    cbn [map]. constructor; [|now apply IH].
    destruct v; try discriminate. cbn [field dict_of].
    intros k Hk Hnone. rewrite field_projected_variant, Hnone by assumption.
    reflexivity.
  - intros imgs0 Hsome. rewrite <- (His1 _ Hsome).
    eexists. split; [reflexivity|].
    clear - Hid. induction imgs as [|v imgs IH]; [constructor|].
    cbn [forallb] in Hid. apply andb_prop in Hid as [Hd Hid].
    cbn [map]. constructor; [|now apply IH].
    destruct v; try discriminate. cbn [field dict_of].
    intros ->. reflexivity.
Qed.

Lemma C5_projector_total_on_well_shaped_witness :
  let kv := [("title", VStr "Mug");
             ("variants", VList [VDict [("price", VStr "9.50")]]);
             ("images", VList [VDict []])] in
  well_shaped kv = true
  /\ exists out, extract_product_info (VDict kv) = Ok out
                 /\ field out "id" = Some VNone.
Proof.
  intros kv. split; [reflexivity|].
  destruct (C5_projector_total_on_well_shaped kv eq_refl)
    as (out & Hout & Hcopied & _).
  exists out. split; [exact Hout|].
  apply Hcopied; [simpl; auto | reflexivity].
Defined.

(** C6, as stated, fails for [body_html]: the record without any field is
    projected to a dictionary in which no key [body_html] exists and the
    description is the empty string, not [None]. *)
Lemma C6_missing_body_html_not_None :
  In "body_html" scalar_fields
  /\ dict_get [] "body_html" = None
  /\ exists out,
       extract_product_info (VDict []) = Ok out
       /\ field out "body_html" = None
       /\ field out "description" = Some (VStr "")
       /\ field out "description" <> Some VNone.
Proof.
  split; [simpl; tauto|]. split; [reflexivity|].
  eexists. repeat split. discriminate.
Qed.

(** C6, amended.  Whenever the Projector returns, each of id, title,
    handle, vendor, product_type, created_at, updated_at and published_at
    is in the result under its own key with the value it has in the raw
    product, and with [None] when the raw product lacks it; body_html is
    in the result under the key description with the value it has in the
    raw product, and with the empty string when the raw product lacks it. *)
Theorem C6_scalar_fields_pass_through
    (kv : list (string * value)) (out : value) :
  extract_product_info (VDict kv) = Ok out ->
  (forall k, In k copied_fields ->
     field out k = Some (or_default (dict_get kv k) VNone))
  /\ field out "description"
     = Some (or_default (dict_get kv "body_html") (VStr "")).
Proof.
  intros H.
  destruct (extract_product_info_Ok kv out H)
    as (tags & vs & variants' & imgs & images' & _ & _ & _ & _ & _ & ->).
  split; [|reflexivity].
  intros k Hk. now apply field_assemble_copied.
Qed.

Lemma C6_scalar_fields_pass_through_witness :
  let kv := [("id", VNum (PyInt 42)); ("body_html", VStr "<p>hi</p>")] in
  let out := assemble kv (VList []) [] [] in
  extract_product_info (VDict kv) = Ok out
  /\ field out "id" = Some (VNum (PyInt 42))
  /\ field out "vendor" = Some VNone
  /\ field out "description" = Some (VStr "<p>hi</p>").
Proof.
  intros kv out.
  pose proof (C6_scalar_fields_pass_through kv out eq_refl) as [Hc Hd].
  split; [reflexivity|]. split; [|split].
  - apply (Hc "id"). simpl; auto.
  - apply (Hc "vendor"). simpl; auto.
  - exact Hd.
Defined.

(** C7.  Whenever the Projector returns on a raw product whose images are
    a list, the projected images are a list of the same length whose i-th
    element is the [src] of the i-th raw image ([None] for an image without
    [src]); a raw product without images has the empty list. *)
Theorem C7_images_are_srcs (kv : list (string * value)) (out : value) :
  extract_product_info (VDict kv) = Ok out ->
  (forall imgs, dict_get kv "images" = Some (VList imgs) ->
     exists srcs,
       field out "images" = Some (VList srcs)
       /\ List.length srcs = List.length imgs
       /\ Forall2 (fun img src =>
                     exists ikv, img = VDict ikv
                       /\ src = or_default (dict_get ikv "src") VNone)
            imgs srcs)
  /\ (dict_get kv "images" = None -> field out "images" = Some (VList [])).
Proof.
  intros H.
  destruct (extract_product_info_Ok kv out H)
    as (tags & vs & variants' & imgs & images' & _ & _ & _ & Hi & Hm & ->).
  apply mapM_Ok_Forall2 in Hm.
  split.
  - intros imgs0 Hsome. rewrite Hsome in Hi. injection Hi as <-.
    exists images'. split; [reflexivity|]. split.
    + symmetry. eapply Forall2_length; eassumption.
    + eapply Forall2_impl; [|eassumption].
      intros img src. apply project_image_Ok.
  - intros Hnone. rewrite Hnone in Hi. injection Hi as <-.
    inversion Hm; subst. reflexivity.
Qed.

Lemma C7_images_are_srcs_witness :
  let imgs := [VDict [("id", VNum (PyInt 1)); ("src", VStr "https://cdn/a.png")];
               VDict [("src", VStr "https://cdn/b.png"); ("width", VNum (PyInt 9))]] in
  let kv := [("title", VStr "Mug"); ("images", VList imgs)] in
  let out := assemble kv (VList []) []
               [VStr "https://cdn/a.png"; VStr "https://cdn/b.png"] in
  extract_product_info (VDict kv) = Ok out
  /\ exists srcs, field out "images" = Some (VList srcs)
                  /\ List.length srcs = 2.
Proof.
  intros imgs kv out. split; [reflexivity|].
  destruct (proj1 (C7_images_are_srcs kv out eq_refl) imgs eq_refl)
    as (srcs & Hf & Hl & _).
  exists srcs. split; [exact Hf | exact Hl].
Defined.

(** C10.  Whenever the Projector returns, its result is a dictionary with
    exactly the thirteen keys id, title, handle, vendor, product_type,
    tags, description, created_at, updated_at, published_at, variants,
    images, options, in this order (there is a key description and no key
    body_html); its variants are a list of dictionaries each of which has
    exactly the nine keys id, title, price, compare_at_price, sku,
    available, inventory_quantity, weight, weight_unit; and the options of
    a raw product without options are the empty list. *)
Theorem C10_projected_keys (kv : list (string * value)) (out : value) :
  extract_product_info (VDict kv) = Ok out ->
  keys out = Some product_keys
  /\ In "description" product_keys
  /\ ~ In "body_html" product_keys
  /\ List.length product_keys = 13
  /\ (exists vs, field out "variants" = Some (VList vs)
                 /\ Forall (fun v => keys v = Some variant_keys) vs)
  /\ List.length variant_keys = 9
  /\ (dict_get kv "options" = None -> field out "options" = Some (VList [])).
Proof.
  intros H.
  destruct (extract_product_info_Ok kv out H)
    as (tags & vs & variants' & imgs & images' & _ & _ & Hm & _ & _ & ->).
  apply mapM_Ok_Forall2 in Hm.
  split; [reflexivity|]. split; [simpl; tauto|].
  split. { simpl. intros Hin. decompose [or] Hin; discriminate || assumption. }
  split; [reflexivity|]. split; [|split; [reflexivity|]].
  - exists variants'. split; [reflexivity|].
    clear - Hm. induction Hm as [|v v' l l' Hv _ IH]; constructor; auto.
    apply project_variant_Ok in Hv as (vkv & _ & ->). reflexivity.
  - intros Hnone. cbn. now rewrite Hnone.
Qed.

Lemma C10_projected_keys_witness :
  let kv := [("title", VStr "Mug");
             ("variants", VList [VDict [("sku", VStr "M-1")]; VDict []])] in
  let out := assemble kv (VList [])
               [projected_variant [("sku", VStr "M-1")]; projected_variant []]
               [] in
  extract_product_info (VDict kv) = Ok out
  /\ keys out = Some product_keys
  /\ field out "options" = Some (VList []).
Proof.
  intros kv out.
  pose proof (C10_projected_keys kv out eq_refl)
    as (Hk & _ & _ & _ & _ & _ & Ho).
  split; [reflexivity|]. split; [exact Hk | exact (Ho eq_refl)].
Defined.

(** ** Lemmas on the Fetcher *)


Section Loop.
Variable net : endpoint.
Variable store_url : string.
Variable delay : number.







End Loop.






(** ** The claims on the Fetcher *)








(** ** The exit status *)








(** * Further properties *)

(** ** The store URL and the page URLs *)

Lemma length_append (s t : string) :
  String.length (s ++ t) = String.length s + String.length t.
Proof. induction s as [|c s IH]; simpl; [reflexivity | now rewrite IH]. Qed.

Lemma append_inj_l (s a b : string) : s ++ a = s ++ b -> a = b.
Proof.
  induction s as [|c s IH]; simpl; [auto|]. intros [= H]. auto.
Qed.

Lemma append_same_length (a x b y : string) :
  a ++ x = b ++ y -> String.length a = String.length b -> a = b /\ x = y.
Proof.
  revert b; induction a as [|c a IH]; intros [|d b]; simpl;
    try discriminate; [auto|].
  intros [= -> H] [= Hlen]. destruct (IH b H Hlen) as [-> ->]. auto.
Qed.

Lemma prefix_of_append (p t : string) : String.prefix p (p ++ t) = true.
Proof.
  induction p as [|a p IH]; simpl; [now destruct t|].
  destruct (ascii_dec a a); [exact IH | congruence].
Qed.

Lemma prefix_append_r (p s t : string) :
  String.prefix p s = true -> String.prefix p (s ++ t) = true.
Proof.
  intros [u ->]%prefix_append. rewrite append_assoc. apply prefix_of_append.
Qed.

Lemma rstrip_not_ends_with (c : ascii) (s : string) :
  ends_with c (rstrip c s) = false.
Proof.
  induction s as [|a s IH]; [reflexivity|]. cbn [rstrip].
  destruct (rstrip c s) as [|b r] eqn:Hr.
  - destruct (Ascii.eqb a c) eqn:Hac; [reflexivity | exact Hac].
  - exact IH.
Qed.

Lemma rstrip_replicate (c : ascii) (s : string) :
  exists n, s = rstrip c s ++ replicate c n.
Proof.
  induction s as [|a s [n IH]]; [now exists 0|]. cbn [rstrip].
  destruct (rstrip c s) as [|b r] eqn:Hr.
  - destruct (Ascii.eqb_spec a c) as [->|Hac].
    + exists (S n). cbn. now rewrite IH at 1.
    + exists n. cbn. now rewrite IH at 1.
  - exists n. cbn. now rewrite IH at 1.
Qed.

Lemma rstrip_fixed (c : ascii) (s : string) :
  ends_with c s = false -> rstrip c s = s.
Proof.
  induction s as [|a s IH]; [reflexivity|].
  destruct s as [|b s'].
  - cbn. now intros ->.
  - intros H. change (ends_with c (String b s') = false) in H.
    cbn [rstrip]. cbn [rstrip] in IH. now rewrite (IH H).
Qed.

Lemma rstrip_append_char (c : ascii) (s : string) :
  rstrip c (s ++ String c "") = rstrip c s.
Proof.
  induction s as [|a s IH]; cbn [append rstrip].
  - now rewrite Ascii.eqb_refl.
  - now rewrite IH.
Qed.

Lemma normalize_rstrip (s : string) : normalize s = rstrip "/" (with_scheme s).
Proof. reflexivity. Qed.

(** X1.  The normalised store URL is the given one, with [https://] put in
    front when it starts with neither [http://] nor [https://], and with
    all slashes at its end removed: it never ends with a slash, and only
    slashes are missing at its end. *)
Theorem X1_normalize_strips_all_trailing_slashes (store_url : string) :
  ends_with "/" (normalize store_url) = false
  /\ exists n, with_scheme store_url = normalize store_url ++ replicate "/" n.
Proof.
  rewrite normalize_rstrip. split.
  - apply rstrip_not_ends_with.
  - apply rstrip_replicate.
Qed.

(** X2.  A store URL that starts with a scheme and does not end with a
    slash is used as it is. *)
Theorem X2_normalize_fixed (store_url : string) :
  has_scheme store_url = true ->
  ends_with "/" store_url = false ->
  normalize store_url = store_url.
Proof.
  intros Hs He. rewrite normalize_rstrip. unfold with_scheme. rewrite Hs.
  now apply rstrip_fixed.
Qed.

Lemma X2_normalize_fixed_witness :
  normalize "http://shop.example/en" = "http://shop.example/en".
Proof. apply X2_normalize_fixed; reflexivity. Defined.

(** X3.  A store given without a scheme is fetched from the same URL as
    the store given with [https://] in front. *)
Theorem X3_normalize_bare_domain (store_url : string) :
  has_scheme store_url = false ->
  normalize store_url = normalize ("https://" ++ store_url).
Proof.
  intros Hs. rewrite !normalize_rstrip. unfold with_scheme. rewrite Hs.
  replace (has_scheme ("https://" ++ store_url)) with true; [reflexivity|].
  symmetry. unfold has_scheme.
  rewrite (prefix_of_append "https://" store_url). apply orb_true_r.
Qed.

Lemma X3_normalize_bare_domain_witness :
  normalize "shop.example" = normalize ("https://" ++ "shop.example").
Proof. apply X3_normalize_bare_domain. reflexivity. Defined.

(** X4.  One more slash at the end of a store URL that starts with a scheme
    changes nothing. *)
Theorem X4_normalize_extra_slash (store_url : string) :
  has_scheme store_url = true ->
  normalize (store_url ++ "/") = normalize store_url.
Proof.
  intros Hs. rewrite !normalize_rstrip. unfold with_scheme. rewrite Hs.
  replace (has_scheme (store_url ++ "/")) with true.
  - apply rstrip_append_char.
  - symmetry. unfold has_scheme in *.
    apply orb_true_iff in Hs as [H|H]; apply orb_true_iff; [left|right];
      now apply prefix_append_r.
Qed.

Lemma X4_normalize_extra_slash_witness :
  normalize ("https://shop.example/" ++ "/") = normalize "https://shop.example/".
Proof. apply X4_normalize_extra_slash. reflexivity. Defined.

Lemma decimal_inj (p q : nat) : decimal p = decimal q -> p = q.
Proof.
  unfold decimal. intros H.
  assert (Hu : Some (Nat.to_uint p) = Some (Nat.to_uint q))
    by now rewrite <- !NilEmpty.usu, H.
  injection Hu as Hu.
  now rewrite <- (Unsigned.of_to p), <- (Unsigned.of_to q), Hu.
Qed.

(** X5.  Different pages of a store have different URLs: the page number
    can be read off the URL. *)
Theorem X5_page_url_injective (store_url : string) (p q : nat) :
  page_url store_url p = page_url store_url q -> p = q.
Proof.
  unfold page_url. intros H.
  do 4 apply append_inj_l in H. now apply decimal_inj.
Qed.

Lemma X5_page_url_injective_witness :
  page_url "https://shop.example" 7 = page_url "https://shop.example" (3 + 4)
  /\ 7 = 3 + 4.
Proof.
  split; [reflexivity|]. apply (X5_page_url_injective "https://shop.example").
  reflexivity.
Defined.

(** ** What every run of the loop keeps *)

Lemma iteration_step (net : endpoint) (store_url : string) (delay : number)
    (st : state) :
  match iteration net store_url delay st with
  | Continue st' =>
      (exists items, all_products st' = (all_products st ++ items)%list)
      /\ page st <= page st' /\ requests st' = S (requests st)
      /\ exists d,
           log st' = (log st ++ [EvRequest (page_url store_url (page st));
                                 EvSleep d])%list
           /\ (d = delay \/ d = PyInt 10)
  | Break st' =>
      (exists items, all_products st' = (all_products st ++ items)%list)
      /\ page st' = page st /\ requests st' = S (requests st)
      /\ log st' = (log st ++ [EvRequest (page_url store_url (page st))])%list
  | Propagate e st' =>
      (exists items, all_products st' = (all_products st ++ items)%list)
      /\ page st <= page st' /\ requests st' = S (requests st)
      /\ log st' = (log st ++ [EvRequest (page_url store_url (page st))])%list
  end.
Proof.
  assert (Hnil : exists items : list value,
             all_products st = (all_products st ++ items)%list)
    by (exists []; now rewrite app_nil_r).
  unfold iteration. cbv zeta.
  destruct (net (requests st) (page_url store_url (page st)))
    as [data|code| | |e]; try (cbn; now auto).
  - destruct (py_get data "products" (VList [])) as [products|e];
      [|cbn; now auto].
    destruct (negb (truthy products)); [cbn; now auto|].
    destruct (py_iter products) as [items|e]; [|cbn; now auto].
    destruct (List.length items <? limit)%nat;
      [cbn; repeat split; now eauto|].
    destruct (py_sleep delay) as [[]|e]; cbn.
    + repeat split; eauto; try lia.
      exists delay. rewrite <- app_assoc. auto.
    + repeat split; eauto; lia.
  - destruct (code =? 404)%Z; [cbn; now auto|].
    destruct (code =? 429)%Z; [|cbn; now auto].
    cbn. repeat split; auto.
    exists (PyInt 10). rewrite <- app_assoc. auto.
Qed.

Lemma fetch_loop_run (net : endpoint) (store_url : string) (delay : number) :
  forall fuel st r st',
    fetch_loop fuel net store_url delay st = Some (r, st') ->
    exists items evs,
      all_products st' = (all_products st ++ items)%list
      /\ log st' = (log st ++ evs)%list
      /\ polite evs = true
      /\ requests st' = requests st + List.length (requests_in evs)
      /\ page st <= page st'
      /\ Forall (fun u => exists p, page st <= p /\ p <= page st'
                                    /\ u = page_url store_url p)
           (requests_in evs)
      /\ Forall (fun d => d = delay \/ d = PyInt 10) (sleeps_in evs)
      /\ (forall l, r = Ok l -> l = all_products st').
Proof.
  induction fuel as [|fuel IH]; intros st r st' H; [discriminate|].
  cbn [fetch_loop] in H.
  pose proof (iteration_step net store_url delay st) as Hstep.
  destruct (iteration net store_url delay st) as [st1|st1|e st1].
  - destruct Hstep as ([items1 Hall] & Hpage & Hreq & d & Hlog & Hd).
    destruct (IH st1 r st' H)
      as (items & evs & Ha & Hl & Hpol & Hr & Hp & Hreqs & Hsl & Hres).
    exists (items1 ++ items)%list,
      (EvRequest (page_url store_url (page st)) :: EvSleep d :: evs).
    split; [|split; [|split; [|split; [|split; [|split; [|split]]]]]].
    + now rewrite Ha, Hall, app_assoc.
    + rewrite Hl, Hlog, <- app_assoc. reflexivity.
    + exact Hpol.
    + rewrite Hr, Hreq. unfold requests_in.
      cbn [flat_map app List.length]. lia.
    + lia.
    + change (Forall (fun u => exists p, page st <= p /\ p <= page st'
                                        /\ u = page_url store_url p)
                (page_url store_url (page st) :: requests_in evs)).
      constructor.
      * exists (page st). repeat split; lia.
      * eapply Forall_impl; [|exact Hreqs].
        intros u (p & Hp1 & Hp2 & ->). exists p. repeat split; lia.
    + change (Forall (fun d0 => d0 = delay \/ d0 = PyInt 10)
                (d :: sleeps_in evs)).
      constructor; assumption.
    + exact Hres.
  - injection H as <- <-.
    destruct Hstep as ([items1 Hall] & Hpage & Hreq & Hlog).
    exists items1, [EvRequest (page_url store_url (page st))].
    split; [exact Hall|]. split; [exact Hlog|]. split; [reflexivity|].
    split; [rewrite Hreq; cbn; lia|]. split; [lia|].
    split; [|split; [constructor | now intros l [= <-]]].
    cbn. constructor; [|constructor].
    exists (page st). repeat split; lia.
  - injection H as <- <-.
    destruct Hstep as ([items1 Hall] & Hpage & Hreq & Hlog).
    exists items1, [EvRequest (page_url store_url (page st))].
    split; [exact Hall|]. split; [exact Hlog|].
    split; [reflexivity|].
    split; [rewrite Hreq; cbn; lia|]. split; [lia|].
    split; [|split; [constructor | discriminate]].
    cbn. constructor; [|constructor].
    exists (page st). repeat split; lia.
Qed.


(** X6.  Whatever the endpoint answers, the loop only appends to the
    products accumulated: the list the Fetcher returns starts with the
    products it held before, in their order. *)
Theorem X6_accumulated_products_are_kept (net : endpoint)
    (store_url : string) (delay : number) (fuel : nat) (st st' : state)
    (l : list value) :
  fetch_loop fuel net store_url delay st = Some (Ok l, st') ->
  exists items, l = (all_products st ++ items)%list.
Proof.
  intros H.
  destruct (fetch_loop_run net store_url delay fuel st _ _ H)
    as (items & evs & Ha & _ & _ & _ & _ & _ & _ & Hres).
  exists items. now rewrite (Hres l eq_refl).
Qed.

Lemma X6_accumulated_products_are_kept_witness :
  exists items,
    [VNone; VDict [("id", VNum (PyInt 1))]] = ([VNone] ++ items)%list.
Proof.
  apply (X6_accumulated_products_are_kept limited_once "https://shop.example"
           default_delay 2 (mkState 1 [VNone] 0 [])
           (mkState 1 [VNone; VDict [("id", VNum (PyInt 1))]] 2
              [EvRequest "https://shop.example/products.json?limit=250&page=1";
               EvSleep (PyInt 10);
               EvRequest "https://shop.example/products.json?limit=250&page=1"])).
  reflexivity.
Defined.



(** X8.  The Fetcher asks for nothing but pages of the normalised store
    URL, with page numbers from 1 to the final value of the page counter,
    and every pause it makes lasts the configured delay or 10 seconds. *)
Theorem X8_only_page_requests (net : endpoint) (store_url : string)
    (delay : number) (fuel : nat) (r : result (list value)) (st' : state) :
  scrape_shopify_products fuel net store_url delay = Some (r, st') ->
  Forall (fun u => exists p, 1 <= p /\ p <= page st'
                             /\ u = page_url (normalize store_url) p)
    (requests_in (log st'))
  /\ Forall (fun d => d = delay \/ d = PyInt 10) (sleeps_in (log st')).
Proof.
  unfold scrape_shopify_products. intros H.
  destruct (fetch_loop_run net (normalize store_url) delay fuel initial _ _ H)
    as (items & evs & _ & Hl & _ & _ & _ & Hreqs & Hsl & _).
  cbn in Hl. rewrite Hl. split; assumption.
Qed.

Lemma X8_only_page_requests_witness :
  exists st',
    scrape_shopify_products 2 failing_store "shop.example/" default_delay
    = Some (Ok (repeat (VDict []) 250), st')
    /\ Forall (fun d => d = default_delay \/ d = PyInt 10)
         (sleeps_in (log st')).
Proof.
  eexists. split; [reflexivity|].
  exact (proj2 (X8_only_page_requests failing_store "shop.example/"
                  default_delay 2 _ _ eq_refl)).
Defined.

(** ** Bodies of an unexpected shape *)





(** ** More on the Projector *)

Lemma mapM_Raise (A B : Type) (f : A -> result B) (l : list A) (e : exn) :
  mapM f l = Raise e -> exists x, In x l /\ f x = Raise e.
Proof.
  induction l as [|x l IH]; cbn [mapM]; [discriminate|].
  destruct (f x) as [y|e'] eqn:Hx; cbn [bind].
  - destruct (mapM f l) as [ys|e'] eqn:Hl; cbn [bind]; [discriminate|].
    intros [= ->]. destruct (IH eq_refl) as (x' & Hin & Hx').
    exists x'. split; [now right | exact Hx'].
  - intros [= ->]. exists x. split; [now left | exact Hx].
Qed.

Lemma mapM_Ok_dicts (B : Type) (f : value -> result B) :
  (forall v y, f v = Ok y -> is_dict v = true) ->
  forall l l', mapM f l = Ok l' -> forallb is_dict l = true.
Proof.
  intros Hf l l' H. apply mapM_Ok_Forall2 in H.
  induction H as [|v y l l' Hv _ IH]; [reflexivity|].
  cbn [forallb]. now rewrite (Hf v y Hv), IH.
Qed.

Lemma project_variant_needs_dict (v y : value) :
  project_variant v = Ok y -> is_dict v = true.
Proof. now destruct v. Qed.

Lemma project_image_needs_dict (v y : value) :
  project_image v = Ok y -> is_dict v = true.
Proof. now destruct v. Qed.

Lemma project_variant_Raise (v : value) (e : exn) :
  project_variant v = Raise e -> e = AttributeError.
Proof. destruct v; cbn; congruence. Qed.

Lemma project_image_Raise (v : value) (e : exn) :
  project_image v = Raise e -> e = AttributeError.
Proof. destruct v; cbn; congruence. Qed.

Lemma py_iter_Raise (v : value) (e : exn) :
  py_iter v = Raise e -> e = TypeError.
Proof. destruct v; cbn; congruence. Qed.

Lemma project_tags_Ok_splittable (kv : list (string * value)) (tags : value) :
  project_tags (VDict kv) = Ok tags -> splittable (dict_get kv "tags") = true.
Proof.
  unfold project_tags. cbn [py_get bind].
  destruct (dict_get kv "tags") as [v|]; [|reflexivity].
  cbn [or_default]. destruct (truthy v) eqn:Hv.
  - destruct v; try discriminate. reflexivity.
  - intros _. destruct v; cbn [splittable]; try reflexivity; now rewrite Hv.
Qed.

Lemma project_tags_not_splittable (kv : list (string * value)) :
  splittable (dict_get kv "tags") = false ->
  project_tags (VDict kv) = Raise AttributeError.
Proof.
  unfold project_tags. cbn [py_get bind].
  destruct (dict_get kv "tags") as [v|]; [|discriminate].
  cbn [or_default]. intros H.
  destruct v; cbn [splittable] in H; try discriminate;
    apply negb_false_iff in H; rewrite H; reflexivity.
Qed.

Lemma iterable_records_iter (o : option value) :
  iterable_records o = true ->
  exists l, py_iter (or_default o (VList [])) = Ok l
            /\ forallb is_dict l = true.
Proof.
  destruct o as [v|]; [|now exists []].
  destruct v as [| | |s|l|kv]; try discriminate; cbn.
  - intros ->%String.eqb_eq. now exists [].
  - intros H. now exists l.
  - destruct kv; [|discriminate]. now exists [].
Qed.

Lemma code_points_cons (c : ascii) (s : string) :
  exists h t, code_points (String c s) = h :: t.
Proof.
  cbn [code_points]. destruct s as [|d s]; [eauto|].
  destruct (is_continuation d); [|eauto].
  destruct (code_points (String d s)); eauto.
Qed.

Lemma iter_records_iterable (o : option value) (l : list value) :
  py_iter (or_default o (VList [])) = Ok l ->
  forallb is_dict l = true ->
  iterable_records o = true.
Proof.
  destruct o as [v|]; [|reflexivity].
  destruct v as [| | |s|l0|kv]; try discriminate;
    cbn [or_default py_iter iterable_records].
  - intros [= <-]. destruct s as [|c s]; [reflexivity|].
    destruct (code_points_cons c s) as (h & t & ->). discriminate.
  - now intros [= <-].
  - intros [= <-]. destruct kv; [reflexivity | discriminate].
Qed.

(** X12.  Whenever the Projector returns on a raw product whose variants
    are a list, the projected variants are a list of the same length, and
    the i-th of them holds, under each of the nine variant keys, the value
    the i-th raw variant has under that key ([None] when it has none). *)
Theorem X12_variants_verbatim (kv : list (string * value)) (out : value)
    (vs : list value) :
  extract_product_info (VDict kv) = Ok out ->
  dict_get kv "variants" = Some (VList vs) ->
  exists vs',
    field out "variants" = Some (VList vs')
    /\ List.length vs' = List.length vs
    /\ Forall2 (fun v v' =>
                  exists vkv, v = VDict vkv
                    /\ forall k, In k variant_keys ->
                         field v' k = Some (or_default (dict_get vkv k) VNone))
         vs vs'.
Proof.
  intros H Hvs.
  destruct (extract_product_info_Ok kv out H)
    as (tags & vs0 & variants' & imgs & images' & _ & Hi & Hm & _ & _ & ->).
  rewrite Hvs in Hi. injection Hi as <-.
  apply mapM_Ok_Forall2 in Hm.
  exists variants'. split; [reflexivity|]. split.
  - symmetry. eapply Forall2_length; eassumption.
  - eapply Forall2_impl; [|eassumption].
    intros v v' (vkv & -> & ->)%project_variant_Ok.
    exists vkv. split; [reflexivity|].
    intros k Hk. now apply field_projected_variant.
Qed.

Lemma X12_variants_verbatim_witness :
  let vs := [VDict [("sku", VStr "M-1"); ("grams", VNum (PyInt 300))];
             VDict [("price", VStr "9.50")]] in
  let kv := [("variants", VList vs)] in
  let out := assemble kv (VList [])
               [projected_variant [("sku", VStr "M-1");
                                   ("grams", VNum (PyInt 300))];
                projected_variant [("price", VStr "9.50")]] [] in
  extract_product_info (VDict kv) = Ok out
  /\ exists vs', field out "variants" = Some (VList vs')
                 /\ List.length vs' = 2.
Proof.
  intros vs kv out. split; [reflexivity|].
  destruct (X12_variants_verbatim kv out vs eq_refl eq_refl)
    as (vs' & Hf & Hl & _).
  exists vs'. split; [exact Hf | exact Hl].
Defined.

(** X13.  Whenever the Projector returns, the options of the raw product
    are in the result as they are, whatever their shape. *)
Theorem X13_options_pass_through (kv : list (string * value))
    (out options : value) :
  extract_product_info (VDict kv) = Ok out ->
  dict_get kv "options" = Some options ->
  field out "options" = Some options.
Proof.
  intros H Ho.
  destruct (extract_product_info_Ok kv out H)
    as (tags & vs0 & variants' & imgs & images' & _ & _ & _ & _ & _ & ->).
  cbn. now rewrite Ho.
Qed.

Lemma X13_options_pass_through_witness :
  let options := VList [VDict [("name", VStr "Size");
                               ("values", VList [VStr "S"; VStr "M"])]] in
  let kv := [("options", options)] in
  extract_product_info (VDict kv) = Ok (assemble kv (VList []) [] [])
  /\ field (assemble kv (VList []) [] []) "options" = Some options.
Proof.
  intros options kv. split; [reflexivity|].
  apply (X13_options_pass_through kv _ options); reflexivity.
Defined.

(** X14.  The Projector returns on a record exactly when its tags are
    absent, a string or a value that counts as false, and its variants and
    its images are each absent, a list of records, or an empty string or
    dictionary.  On every other record it raises. *)
Theorem X14_projector_returns_iff (kv : list (string * value)) :
  (exists out, extract_product_info (VDict kv) = Ok out)
  <-> splittable (dict_get kv "tags")
      && iterable_records (dict_get kv "variants")
      && iterable_records (dict_get kv "images") = true.
Proof.
  split.
  - intros [out H].
    destruct (extract_product_info_Ok kv out H)
      as (tags & vs & variants' & imgs & images'
          & Ht & Hv & Hmv & Hi & Hmi & _).
    rewrite (project_tags_Ok_splittable kv tags Ht).
    rewrite (iter_records_iterable _ vs Hv
               (mapM_Ok_dicts _ _ project_variant_needs_dict _ _ Hmv)).
    rewrite (iter_records_iterable _ imgs Hi
               (mapM_Ok_dicts _ _ project_image_needs_dict _ _ Hmi)).
    reflexivity.
  - intros [[Ht Hv]%andb_prop Hi]%andb_prop.
    destruct (project_tags_splittable kv Ht) as [tags Htags].
    destruct (iterable_records_iter _ Hv) as (vs & Hvs & Hvd).
    destruct (iterable_records_iter _ Hi) as (imgs & His & Hid).
    eexists.
    rewrite extract_product_info_dict, Htags, Hvs. cbn [bind].
    rewrite (mapM_project_variant _ Hvd), His. cbn [bind].
    rewrite (mapM_project_image _ Hid). reflexivity.
Qed.

Lemma X14_projector_returns_iff_witness :
  exists out,
    extract_product_info
      (VDict [("tags", VNone); ("variants", VStr ""); ("images", VDict [])])
    = Ok out.
Proof.
  apply (proj2 (X14_projector_returns_iff
                  [("tags", VNone); ("variants", VStr "");
                   ("images", VDict [])])).
  reflexivity.
Defined.

(** X15.  The Projector raises nothing but [AttributeError] and
    [TypeError].  It raises [AttributeError] on an argument that is no
    dictionary, and on a record whose tags count as true without being a
    string, whatever the other fields are. *)
Theorem X15_projector_exceptions :
  (forall p e, extract_product_info p = Raise e ->
               e = AttributeError \/ e = TypeError)
  /\ (forall p, is_dict p = false ->
                extract_product_info p = Raise AttributeError)
  /\ (forall kv, splittable (dict_get kv "tags") = false ->
                 extract_product_info (VDict kv) = Raise AttributeError).
Proof.
  split; [|split].
  - intros p e. destruct p as [| | | | |kv]; try (intros [= <-]; now left).
    rewrite extract_product_info_dict.
    destruct (project_tags (VDict kv)) as [tags|e0] eqn:Ht; cbn [bind].
    2:{ intros [= <-]. left.
        destruct (splittable (dict_get kv "tags")) eqn:Hs.
        - destruct (project_tags_splittable kv Hs); congruence.
        - rewrite (project_tags_not_splittable kv Hs) in Ht. congruence. }
    destruct (py_iter (or_default (dict_get kv "variants") (VList [])))
      as [vs|e0] eqn:Hv; cbn [bind].
    2:{ intros [= <-]. right. eapply py_iter_Raise; eassumption. }
    destruct (mapM project_variant vs) as [variants'|e0] eqn:Hmv; cbn [bind].
    2:{ intros [= <-]. left.
        destruct (mapM_Raise _ _ _ _ _ Hmv) as (x & _ & Hx).
        eapply project_variant_Raise; eassumption. }
    destruct (py_iter (or_default (dict_get kv "images") (VList [])))
      as [imgs|e0] eqn:Hi; cbn [bind].
    2:{ intros [= <-]. right. eapply py_iter_Raise; eassumption. }
    destruct (mapM project_image imgs) as [images'|e0] eqn:Hmi; cbn [bind].
    2:{ intros [= <-]. left.
        destruct (mapM_Raise _ _ _ _ _ Hmi) as (x & _ & Hx).
        eapply project_image_Raise; eassumption. }
    discriminate.
  - intros p Hp. destruct p; try reflexivity. discriminate.
  - intros kv Hs. rewrite extract_product_info_dict.
    now rewrite (project_tags_not_splittable kv Hs).
Qed.

Lemma X15_projector_exceptions_witness :
  extract_product_info
    (VDict [("tags", VNum (PyInt 3)); ("variants", VNone)])
  = Raise AttributeError.
Proof.
  apply (proj2 (proj2 X15_projector_exceptions)). reflexivity.
Defined.

(** *** The pieces of [split] *)

Lemma split_from_pieces (sep : string) :
  sep <> "" ->
  forall s skip cur,
    (skip = 0 ->
     forall a b, cur ++ s = a ++ sep ++ b ->
                 String.length cur <= String.length a) ->
    (skip <> 0 -> cur = "") ->
    Forall (fun t => ~ occurs sep t) (split_from sep s skip cur).
Proof.
  intros Hsep.
  assert (Hlen : 1 <= String.length sep)
    by (destruct sep; [congruence | cbn; lia]).
  assert (Hcur : forall s cur,
             (forall a b, cur ++ s = a ++ sep ++ b ->
                          String.length cur <= String.length a) ->
             ~ occurs sep cur).
  { intros s cur Hinv (a & b & Hab).
    assert (H : String.length cur <= String.length a).
    { apply (Hinv a (b ++ s)). now rewrite Hab, !append_assoc. }
    rewrite Hab, !length_append in H. lia. }
  induction s as [|c s IH]; intros skip cur Hinv Hskip; cbn [split_from].
  - constructor; [|constructor].
    destruct skip as [|n].
    + apply (Hcur ""). exact (Hinv eq_refl).
    + rewrite Hskip by discriminate. intros (a & b & Hab).
      destruct a; [|discriminate]. destruct sep; [congruence | discriminate].
  - destruct skip as [|n].
    + destruct (String.prefix sep (String c s)) eqn:Hp.
      * constructor; [apply (Hcur (String c s)); exact (Hinv eq_refl)|].
        apply IH; [|reflexivity].
        intros _ a b _. cbn. lia.
      * apply IH; [|congruence].
        intros _ a b Hab. rewrite append_assoc in Hab. cbn [append] in Hab.
        pose proof (Hinv eq_refl a b Hab) as Hle.
        rewrite length_append. cbn [String.length].
        destruct (Nat.eq_dec (String.length cur) (String.length a)) as [He|];
          [|lia].
        destruct (append_same_length cur (String c s) a (sep ++ b) Hab He)
          as [_ Hs].
        rewrite Hs, prefix_of_append in Hp. discriminate.
    + rewrite (Hskip ltac:(discriminate)).
      apply IH.
      * intros _ a b _. cbn. lia.
      * reflexivity.
Qed.

Lemma split_from_no_occurrence (sep : string) :
  forall s cur, ~ occurs sep s -> split_from sep s 0 cur = [cur ++ s].
Proof.
  induction s as [|c s IH]; intros cur Hno; cbn [split_from].
  - now rewrite append_empty_r.
  - destruct (String.prefix sep (String c s)) eqn:Hp.
    + exfalso. apply Hno. destruct (prefix_append _ _ Hp) as [t Ht].
      now exists "", t.
    + rewrite IH.
      * now rewrite append_assoc.
      * intros (a & b & ->). apply Hno. now exists (String c a), b.
Qed.

(** X16.  Whenever the Projector returns on a raw product whose tags are a
    non-empty string, the projected tags are a non-empty list of strings
    none of which contains [", "]; when the raw tags do not contain [", "]
    they are the only projected tag. *)
Theorem X16_tags_pieces (kv : list (string * value)) (out : value)
    (s : string) :
  extract_product_info (VDict kv) = Ok out ->
  dict_get kv "tags" = Some (VStr s) ->
  s <> "" ->
  exists pieces,
    field out "tags" = Some (VList (map VStr pieces))
    /\ pieces <> []
    /\ Forall (fun t => ~ occurs ", " t) pieces
    /\ (~ occurs ", " s -> pieces = [s]).
Proof.
  intros H Hs Hne.
  destruct (extract_product_info_Ok kv out H)
    as (tags & vs & variants' & imgs & images' & Ht & _ & _ & _ & _ & ->).
  rewrite (project_tags_str kv s Hs Hne) in Ht. injection Ht as <-.
  exists (split ", " s). split; [reflexivity|]. split; [|split].
  - apply split_from_not_nil.
  - apply split_from_pieces; [discriminate | | congruence].
    intros _ a b _. cbn. lia.
  - intros Hno. unfold split. now rewrite split_from_no_occurrence.
Qed.

Lemma X16_tags_pieces_witness :
  let kv := [("tags", VStr "red, ,blue, ")] in
  let out := assemble kv (VList [VStr "red"; VStr ",blue"; VStr ""]) [] [] in
  extract_product_info (VDict kv) = Ok out
  /\ exists pieces,
       field out "tags" = Some (VList (map VStr pieces))
       /\ Forall (fun t => ~ occurs ", " t) pieces.
Proof.
  intros kv out. split; [reflexivity|].
  destruct (X16_tags_pieces kv out "red, ,blue, " eq_refl eq_refl
              ltac:(discriminate)) as (pieces & Hf & _ & Hall & _).
  exists pieces. split; [exact Hf | exact Hall].
Defined.

(** ** The output file and the summary *)

Lemma mapM_length (A B : Type) (f : A -> result B) (l : list A) (l' : list B) :
  mapM f l = Ok l' -> List.length l' = List.length l.
Proof.
  intros H. apply mapM_Ok_Forall2 in H. symmetry.
  eapply Forall2_length; eassumption.
Qed.

Lemma mapM_In_Raise (A B : Type) (f : A -> result B) (l : list A) (x : A)
    (e : exn) :
  In x l -> f x = Raise e -> exists e', mapM f l = Raise e'.
Proof.
  induction l as [|y l IH]; [contradiction|].
  intros [->|Hin] Hx; cbn [mapM].
  - rewrite Hx. cbn. eauto.
  - destruct (f y) as [z|e']; cbn [bind]; [|eauto].
    destruct (IH Hin Hx) as [e' ->]. cbn. eauto.
Qed.

(** X17.  When [main] writes the output file, its name is the third
    command-line argument, or [products.json] when there is none, and its
    content is the list of the projections of the products the Fetcher
    returned, one for each product and in their order; at least one
    product was fetched. *)
Theorem X17_written_file (fuel : nat) (net : endpoint) (fs : filesystem)
    (argv : list string) (r : run) (file : string) (cleaned : list value) :
  main fuel net fs argv = Some r ->
  written r = Some (file, cleaned) ->
  file = output_file_of argv
  /\ exists products st,
       scrape_shopify_products fuel net (nth 1 argv "") default_delay
       = Some (Ok products, st)
       /\ products <> []
       /\ mapM extract_product_info products = Ok cleaned
       /\ List.length cleaned = List.length products.
Proof.
  unfold main, output_file_of.
  destruct (List.length argv <? 2)%nat; [intros [= <-]; discriminate|].
  destruct (scrape_shopify_products fuel net (nth 1 argv "") default_delay)
    as [[[products|e] st]|]; try discriminate;
    [|intros [= <-]; discriminate].
  destruct products as [|p products]; [intros [= <-]; discriminate|].
  cbn [truthy negb].
  destruct (mapM extract_product_info (p :: products)) as [cleaned'|e] eqn:Hm;
    [|intros [= <-]; discriminate].
  destruct (fs (if (2 <? List.length argv)%nat then nth 2 argv ""
                else "products.json") cleaned') as [e|];
    [intros [= <-]; discriminate|].
  destruct (members "vendor" cleaned') as [vendors|e]; cbn [bind];
    [destruct (members "product_type" cleaned') as [types|e]; cbn [bind]|];
    intros [= <-] Hw; cbn [written] in Hw; injection Hw as <- <-;
    (split; [reflexivity|]; exists (p :: products), st;
     split; [reflexivity|]; split; [discriminate|]; split; [exact Hm|];
     now apply mapM_length in Hm).
Qed.

Lemma X17_written_file_witness :
  let argv := ["shopify_scraper.py"; "https://shop.example"] in
  exists r cleaned,
    main 2 limited_once disk argv = Some r
    /\ written r = Some ("products.json", cleaned)
    /\ List.length cleaned = 1.
Proof.
  intros argv. do 2 eexists. split; [reflexivity|]. split; [reflexivity|].
  destruct (X17_written_file 2 limited_once disk argv _ _ _ eq_refl eq_refl)
    as (_ & products & st & Hs & _ & _ & Hl).
  injection Hs as <- _. exact Hl.
Defined.

(** X18.  One product on which the Projector raises is enough for nothing
    to be written: the process ends with an uncaught exception and without
    an output file, whatever the other products are. *)
Theorem X18_one_bad_product_no_file (fuel : nat) (net : endpoint)
    (fs : filesystem) (argv : list string) (products : list value)
    (st : state) (p : value) (e : exn) :
  2 <= List.length argv ->
  scrape_shopify_products fuel net (nth 1 argv "") default_delay
  = Some (Ok products, st) ->
  In p products ->
  extract_product_info p = Raise e ->
  exists r e',
    main fuel net fs argv = Some r
    /\ status r = Traceback e'
    /\ written r = None.
Proof.
  intros Hargv Hs Hin Hp. unfold main.
  apply Nat.ltb_ge in Hargv. rewrite Hargv, Hs.
  destruct products as [|q products]; [contradiction|].
  cbn [truthy negb].
  destruct (mapM_In_Raise _ _ extract_product_info _ _ _ Hin Hp) as [e' ->].
  do 2 eexists. repeat split.
Qed.

Lemma X18_one_bad_product_no_file_witness :
  exists r e',
    main 1 tag_list_store disk ["shopify_scraper.py"; "shop.example"] = Some r
    /\ status r = Traceback e'
    /\ written r = None.
Proof.
  apply (X18_one_bad_product_no_file 1 tag_list_store disk
           ["shopify_scraper.py"; "shop.example"]
           [VDict [("title", VStr "Mug"); ("tags", VList [VStr "sale"])]]
           (mkState 1 [VDict [("title", VStr "Mug");
                              ("tags", VList [VStr "sale"])]] 1
              [EvRequest "https://shop.example/products.json?limit=250&page=1"])
           (VDict [("title", VStr "Mug"); ("tags", VList [VStr "sale"])])
           AttributeError).
  - cbn. lia.
  - reflexivity.
  - now left.
  - reflexivity.
Defined.

Lemma py_item_field (p : value) (k : string) (v : value) :
  py_item p k = Ok v -> field p k = Some v.
Proof.
  destruct p as [| | | | |kv]; try discriminate. cbn.
  destruct (dict_get kv k); [now intros [= ->] | discriminate].
Qed.

(** X20.  When the summary can be computed for a key, the values it
    counts are exactly the values under that key that count as true, in
    the order of the records: records whose value is [None], empty or 0
    are left out.  All values counted are hashable and every record has
    the key. *)
Theorem X20_summary_counts_true_values (k : string)
    (cleaned vs : list value) :
  members k cleaned = Ok vs ->
  vs = filter truthy (map (fun p => or_default (field p k) VNone) cleaned)
  /\ Forall (fun v => hashable v = true) vs
  /\ Forall (fun p => field p k <> None) cleaned.
Proof.
  revert vs. induction cleaned as [|p cleaned IH]; intros vs; cbn [members].
  - intros [= <-]. repeat split; constructor.
  - destruct (py_item p k) as [c|e] eqn:Hc; cbn [bind]; [|discriminate].
    apply py_item_field in Hc. cbn [map filter]. rewrite Hc. cbn [or_default].
    assert (Hp : field p k <> None) by congruence.
    destruct (truthy c).
    + destruct (hashable c) eqn:Hh; [|discriminate].
      destruct (members k cleaned) as [vs'|e]; cbn [bind]; [|discriminate].
      intros [= <-]. destruct (IH vs' eq_refl) as (-> & Hall & Hk).
      repeat split; constructor; assumption.
    + intros H. destruct (IH vs H) as (-> & Hall & Hk).
      repeat split; [assumption | constructor; assumption].
Qed.

Lemma X20_summary_counts_true_values_witness :
  members "vendor"
    [VDict [("vendor", VStr "Acme")]; VDict [("vendor", VStr "")];
     VDict [("vendor", VNone)]; VDict [("vendor", VStr "Acme")]]
  = Ok [VStr "Acme"; VStr "Acme"]
  /\ [VStr "Acme"; VStr "Acme"]
     = filter truthy
         (map (fun p => or_default (field p "vendor") VNone)
            [VDict [("vendor", VStr "Acme")]; VDict [("vendor", VStr "")];
             VDict [("vendor", VNone)]; VDict [("vendor", VStr "Acme")]]).
Proof.
  split; [reflexivity|].
  apply (X20_summary_counts_true_values "vendor"). reflexivity.
Defined.





(** ** Pages longer than the limit *)




(** ** Projecting a projection *)

(** X23.  The Projector is not meant for its own results: applied to a
    projection that has at least one tag it raises [AttributeError] (the
    tags are a list then, not a string), and whenever it does return on a
    projection, the description is lost: the result has the empty string
    as its description. *)
Theorem X23_reprojection (kv : list (string * value)) (out : value) :
  extract_product_info (VDict kv) = Ok out ->
  (forall t ts, field out "tags" = Some (VList (t :: ts)) ->
                extract_product_info out = Raise AttributeError)
  /\ (forall out', extract_product_info out = Ok out' ->
                   field out' "description" = Some (VStr "")).
Proof.
  intros H.
  destruct (extract_product_info_Ok kv out H)
    as (tags & vs & variants' & imgs & images' & _ & _ & _ & _ & _ & ->).
  split.
  - intros t ts Ht. rewrite field_assemble_tags in Ht. injection Ht as ->.
    reflexivity.
  - intros out' H'. unfold assemble in H'.
    apply extract_product_info_Ok in H'.
    destruct H' as (tags' & vs' & v'' & imgs'' & i'' & _ & _ & _ & _ & _ & ->).
    reflexivity.
Qed.

Lemma X23_reprojection_witness :
  let kv := [("tags", VStr "a, b"); ("body_html", VStr "<p>hi</p>")] in
  let out := assemble kv (VList [VStr "a"; VStr "b"]) [] [] in
  extract_product_info (VDict kv) = Ok out
  /\ extract_product_info out = Raise AttributeError.
Proof.
  intros kv out. split; [reflexivity|].
  apply (proj1 (X23_reprojection kv out eq_refl) (VStr "a") [VStr "b"]).
  reflexivity.
Defined.

(** ** What the Projector reads *)

(** X25.  The result of the Projector, be it a projection or an exception,
    depends on nothing but the values under the thirteen keys that it
    reads: two records that agree on these keys, whatever else they hold
    and in whatever order, have the same result. *)
Theorem X25_projector_reads_only_its_keys (kv1 kv2 : list (string * value)) :
  (forall k, In k read_keys -> dict_get kv1 k = dict_get kv2 k) ->
  extract_product_info (VDict kv1) = extract_product_info (VDict kv2).
Proof.
  intros H. rewrite !extract_product_info_dict.
  unfold project_tags, assemble; cbn [py_get].
  rewrite !(H "tags"), !(H "variants"), !(H "images"), !(H "id"),
    !(H "title"), !(H "handle"), !(H "vendor"), !(H "product_type"),
    !(H "body_html"), !(H "created_at"), !(H "updated_at"),
    !(H "published_at"), !(H "options") by (simpl; tauto).
  reflexivity.
Qed.

Lemma X25_projector_reads_only_its_keys_witness :
  let kv1 := [("title", VStr "Mug"); ("tags", VStr "a, b"); ("extra", VNone)] in
  let kv2 := [("tags", VStr "a, b"); ("title", VStr "Mug")] in
  extract_product_info (VDict kv1) = extract_product_info (VDict kv2).
Proof.
  intros kv1 kv2. apply X25_projector_reads_only_its_keys.
  intros k Hk. simpl in Hk.
  repeat (destruct Hk as [<-|Hk]; [reflexivity|]). contradiction.
Defined.

(** ** A delay that [time.sleep] refuses *)



(** ** The status of the process *)




